(** * PayrollProject: payroll computation and compliance deduction engine

    A shallow embedding of
      - models/compliance_parser.py   (rate-table parsers),
      - models/compliance_model.py    (rate-table lookup, statutory deductions),
      - models/payroll_computation_model.py (pay computation, upsert, batch run),
      - models/payroll_transaction_history.py (history logging),
    with the parts of models/employee_model.py, models/timekeeping_model.py and
    models/database.py they read.

    Conventions of the embedding.
      - A Python [float] is an exact rational ([Q]): arithmetic is carried
        out without the rounding error of binary doubles, and [round(x, 2)]
        is rounding of the exact value to the nearest hundredth, halves to
        the even neighbour.  What depends on the last binary digit of a
        double (a tie of [round], a comparison met exactly through a
        product or a sum) is not decided by the embedding.
      - [float('inf')] is kept where it is the upper end of a bracket
        ([xfloat]).  Any other number read from the words [inf] and [nan]
        has no value here; the conversion then ends in [Unrepresented].
      - A Python exception is a value of [exn]; code that may raise lives in the
        [result] monad and [try ... except Exception] is [try_except].
      - The relational store is a record of tables (lists of rows, nullable
        columns as [option]); every function that touches it takes it as an
        argument and, when it writes, returns the new store.  Reads are
        taken to succeed.  What the server does with a write is not in the
        source: it is an argument ([Engine]) of the functions that write. *)

From Stdlib Require Import ZArith QArith Qround Qminmax Qabs.
From Stdlib Require Import List String Ascii Bool Lia Lqa.
From Stdlib Require Import DecimalString.
Import ListNotations.

Open Scope Q_scope.

(** ** Exceptions and the result monad *)

(** The exceptions of the embedded code.  [InternalError] and
    [DatabaseError] are those of the database connector.  [Unrepresented]
    is no exception of Python: it marks a conversion whose result the
    embedding cannot hold. *)
Inductive exn : Type :=
| ValueError (msg : string)
| TypeError (msg : string)
| IndexError
| AttributeError
| OSError
| InternalError (msg : string)
| DatabaseError (msg : string)
| Unrepresented.

Inductive result (A : Type) : Type :=
| Ok (a : A)
| Raise (e : exn).

Arguments Ok {A} a.
Arguments Raise {A} e.

Definition bind {A B : Type} (m : result A) (k : A -> result B) : result B :=
  match m with
  | Ok a => k a
  | Raise e => Raise e
  end.

Notation "x <- m ;; k" := (bind m (fun x => k))
  (at level 61, m at next level, right associativity).

(** [try: body except Exception as e: handler]. *)
Definition try_except {A : Type} (body : result A) (handler : exn -> result A)
  : result A :=
  match body with
  | Ok a => Ok a
  | Raise e => handler e
  end.

(** A [for] loop over [l] that threads the loop's variables [s] and stops at
    the first exception. *)
Fixpoint for_loop {S A : Type} (body : S -> A -> result S) (s : S) (l : list A)
  : result S :=
  match l with
  | [] => Ok s
  | x :: rest => s' <- body s x ;; for_loop body s' rest
  end.

(** ** Numbers *)

(** A float that may be [float('inf')]. *)
Inductive xfloat : Type :=
| Fin (q : Q)
| Inf.

(** [q <= b] and [q < b] for a possibly infinite [b]. *)
Definition Qle_x (q : Q) (b : xfloat) : bool :=
  match b with Fin m => Qle_bool q m | Inf => true end.

Definition Qlt_bool (a b : Q) : bool := negb (Qle_bool b a).

Definition Qlt_x (q : Q) (b : xfloat) : bool :=
  match b with Fin m => Qlt_bool q m | Inf => true end.

(** Python's [min(a, b)]: [b] only when it is strictly smaller. *)
Definition py_min (a b : Q) : Q := if Qlt_bool b a then b else a.

(** Nearest integer, halves to the even neighbour. *)
Definition round_half_even (q : Q) : Z :=
  let f := Qfloor q in
  match ((q - inject_Z f) ?= (1 # 2))%Q with
  | Lt => f
  | Gt => (f + 1)%Z
  | Eq => if Z.even f then f else (f + 1)%Z
  end.

(** [round(q, 2)]. *)
Definition round2 (q : Q) : Q := round_half_even (q * 100) # 100.

(** Truthiness of a float: [0.0] is falsy. *)
Definition Q_truthy (q : Q) : bool := negb (Qeq_bool q 0).

(** ** Strings *)

Open Scope string_scope.

Definition endswith (s suffix : string) : bool :=
  let n := String.length s in
  let m := String.length suffix in
  (m <=? n)%nat && String.eqb (substring (n - m) m s) suffix.

(** [sub in s]. *)
Fixpoint contains (sub s : string) : bool :=
  prefix sub s ||
  match s with
  | EmptyString => false
  | String _ rest => contains sub rest
  end.

(** [s.split(c)] for a one-character separator. *)
Fixpoint split_on (c : ascii) (s : string) : list string :=
  match s with
  | EmptyString => [EmptyString]
  | String a rest =>
      if Ascii.eqb a c then EmptyString :: split_on c rest
      else
        match split_on c rest with
        | [] => [String a EmptyString]
        | w :: ws => String a w :: ws
        end
  end.

(** [s.replace(c, '')]. *)
Fixpoint remove_char (c : ascii) (s : string) : string :=
  match s with
  | EmptyString => EmptyString
  | String a rest =>
      if Ascii.eqb a c then remove_char c rest else String a (remove_char c rest)
  end.

(** Whitespace as [str.isspace] sees it, for characters below 256. *)
Definition is_space (a : ascii) : bool :=
  let n := nat_of_ascii a in
  (n =? 32)%nat || ((9 <=? n)%nat && (n <=? 13)%nat) ||
  ((28 <=? n)%nat && (n <=? 31)%nat) || (n =? 133)%nat || (n =? 160)%nat.

Fixpoint lstrip (s : string) : string :=
  match s with
  | EmptyString => EmptyString
  | String a rest => if is_space a then lstrip rest else s
  end.

Fixpoint rstrip (s : string) : string :=
  match s with
  | EmptyString => EmptyString
  | String a rest =>
      match rstrip rest with
      | EmptyString => if is_space a then EmptyString else String a EmptyString
      | r => String a r
      end
  end.

(** [s.strip()]. *)
Definition strip (s : string) : string := rstrip (lstrip s).

Definition is_digit (a : ascii) : bool :=
  let n := nat_of_ascii a in (48 <=? n)%nat && (n <=? 57)%nat.

Definition digit_value (a : ascii) : Z := Z.of_nat (nat_of_ascii a - 48).

(** [digitpart ::= digit (["_"] digit)*]: the value continued from [acc]
    and the number of digits read after [n]; [None] when the string is not
    a digit part.  [after_digit] says whether the last character was a
    digit. *)
Fixpoint digitpart_from (acc : Z) (n : nat) (after_digit : bool) (s : string)
  : option (Z * nat) :=
  match s with
  | EmptyString => if after_digit then Some (acc, n) else None
  | String a rest =>
      if is_digit a
      then digitpart_from (acc * 10 + digit_value a) (S n) true rest
      else if Ascii.eqb a "_"%char
           then if after_digit then digitpart_from acc n false rest else None
           else None
  end.

Definition digitpart (s : string) : option (Z * nat) :=
  digitpart_from 0 0 false s.

(** [number ::= [digitpart] "." digitpart | digitpart ["."]]. *)
Definition unsigned_decimal (s : string) : option Q :=
  match split_on "."%char s with
  | [ip] =>
      match digitpart ip with
      | Some (v, _) => Some (inject_Z v)
      | None => None
      end
  | [ip; fp] =>
      let whole := if String.eqb ip "" then Some (0%Z, O) else digitpart ip in
      let frac := if String.eqb fp "" then Some (0%Z, O) else digitpart fp in
      match whole, frac with
      | Some (v, n), Some (w, m) =>
          match (n + m)%nat with
          | O => None
          | _ => Some ((v * 10 ^ Z.of_nat m + w) # Z.to_pos (10 ^ Z.of_nat m))
          end
      | _, _ => None
      end
  | _ => None
  end.

(** One optional sign. *)
Definition signed (s : string) : bool * string :=
  match s with
  | String "-"%char r => (true, r)
  | String "+"%char r => (false, r)
  | _ => (false, s)
  end.

(** [exponent ::= ("e" | "E") [sign] digitpart], after the letter. *)
Definition exponent (s : string) : option Z :=
  let (neg, body) := signed s in
  match digitpart body with
  | Some (v, _) => Some (if neg then (- v)%Z else v)
  | None => None
  end.

Definition pow10 (e : Z) : Q :=
  if (0 <=? e)%Z then inject_Z (10 ^ e) else 1 # Z.to_pos (10 ^ (- e)).

Fixpoint lower (s : string) : string :=
  match s with
  | EmptyString => EmptyString
  | String a rest =>
      let n := nat_of_ascii a in
      String (if (65 <=? n)%nat && (n <=? 90)%nat
              then ascii_of_nat (n + 32) else a) (lower rest)
  end.

(** The part of [s] before the first [e] or [E], and the part after it. *)
Fixpoint split_exponent (s : string) : string * option string :=
  match s with
  | EmptyString => (EmptyString, None)
  | String a rest =>
      if Ascii.eqb a "e"%char || Ascii.eqb a "E"%char
      then (EmptyString, Some rest)
      else let (m, e) := split_exponent rest in (String a m, e)
  end.

(** [floatnumber ::= number [exponent]]. *)
Definition floatnumber (s : string) : option Q :=
  match split_exponent s with
  | (m, None) => unsigned_decimal m
  | (m, Some e) =>
      match unsigned_decimal m, exponent e with
      | Some q, Some k => Some (q * pow10 k)
      | _, _ => None
      end
  end.

(** What [float] reads in a string. *)
Inductive float_literal : Type :=
| Finite (q : Q)
| PosInf
| NegInf
| NaN
| NotAFloat.

(** The grammar of [float(s)]: blanks around, one optional sign, then a
    number with an optional exponent, or one of the words [inf],
    [infinity] and [nan] in any case.  Digits are the ASCII digits. *)
Definition read_float (s : string) : float_literal :=
  let (neg, body) := signed (strip s) in
  let word := lower body in
  if String.eqb word "inf" || String.eqb word "infinity"
  then if neg then NegInf else PosInf
  else if String.eqb word "nan" then NaN
  else match floatnumber body with
       | Some q => Finite (if neg then - q else q)
       | None => NotAFloat
       end.

(** [float(s)] on a string.  A finite literal gives its exact value; a
    string that is no float literal raises [ValueError].  The words [inf]
    and [nan] have no rational value: [Unrepresented] marks a number read
    from them, which Python accepts and the embedding cannot hold, except
    where an upper bound is read (see [xfloat_of_string]). *)
Definition float_of_string (s : string) : result Q :=
  match read_float s with
  | Finite q => Ok q
  | NotAFloat => Raise (ValueError "could not convert string to float")
  | _ => Raise Unrepresented
  end.

(** [str(n)] of a number, in plain decimal notation (at most 17 fractional
    digits; exponent notation is not covered by the embedding). *)
Definition string_of_Z (z : Z) : string := NilZero.string_of_int (Z.to_int z).

Fixpoint fraction_digits (fuel : nat) (r d : Z) : string :=
  match fuel with
  | O => EmptyString
  | S fuel' =>
      if (r =? 0)%Z then EmptyString
      else string_of_Z (r * 10 / d) ++ fraction_digits fuel' (r * 10 mod d) d
  end.

Definition str_of_Q (q : Q) : string :=
  let a := Z.abs (Qnum q) in
  let d := Zpos (Qden q) in
  let sign := if (Qnum q <? 0)%Z then "-" else "" in
  let r := (a mod d)%Z in
  sign ++ string_of_Z (a / d) ++
  (if (r =? 0)%Z then "" else "." ++ fraction_digits 17 r d).

Open Scope list_scope.

(** ** Uploaded rate-table documents (models/compliance_parser.py) *)

(** What a document cell holds: [None], a string or a number.  The cells of
    a [csv.DictReader] row are strings, or [None] where the line is short. *)
Inductive cell : Type :=
| CNone
| CStr (s : string)
| CNum (q : Q).

Definition CsvRow : Type := list (string * cell).
Definition XlsRow : Type := list cell.

(** The files the parsers can see.  [fs_csv] is [open] followed by
    [csv.DictReader]; [fs_xlsx] is [openpyxl.load_workbook(...).active] read
    from its second row with [values_only=True].  Either may raise. *)
Record FileSystem : Type := {
  fs_exists : string -> bool;
  fs_csv : string -> result (list CsvRow);
  fs_xlsx : string -> result (list XlsRow);
  EXCEL_AVAILABLE : bool
}.

Fixpoint lookup {V : Type} (k : string) (d : list (string * V)) : option V :=
  match d with
  | [] => None
  | (k', v) :: rest => if String.eqb k k' then Some v else lookup k rest
  end.

(** [row.get(key, default)]. *)
Definition row_get (row : CsvRow) (key : string) (default : cell) : cell :=
  match lookup key row with
  | Some v => v
  | None => default
  end.

(** [row[i]] on a tuple. *)
Definition row_at (row : XlsRow) (i : nat) : result cell :=
  match nth_error row i with
  | Some v => Ok v
  | None => Raise IndexError
  end.

(** [float(v)]. *)
Definition py_float (v : cell) : result Q :=
  match v with
  | CNone => Raise (TypeError "float() argument must be a string or a real number")
  | CStr s => float_of_string s
  | CNum q => Ok q
  end.

(** [str(v)]. *)
Definition py_str (v : cell) : string :=
  match v with
  | CNone => "None"
  | CStr s => s
  | CNum q => str_of_Q q
  end.

(** Truthiness of a cell. *)
Definition truthy (v : cell) : bool :=
  match v with
  | CNone => false
  | CStr s => negb (String.eqb s "")
  | CNum q => Q_truthy q
  end.

(** [v or default]. *)
Definition py_or (v default : cell) : cell := if truthy v then v else default.

(** [sub in v]: only a string can be searched. *)
Definition py_in (sub : string) (v : cell) : result bool :=
  match v with
  | CStr s => Ok (contains sub s)
  | _ => Raise (TypeError "argument is not iterable")
  end.

(** [v.replace('%', '')]: only a string has the method. *)
Definition py_replace_percent (v : cell) : result string :=
  match v with
  | CStr s => Ok (remove_char "%"%char s)
  | _ => Raise AttributeError
  end.

(** [min_sal, max_sal = salary_range.split('-')]. *)
Definition split_range (salary_range : string) : result (string * string) :=
  match split_on "-"%char salary_range with
  | [a; b] => Ok (a, b)
  | _ => Raise (ValueError "wrong number of values to unpack")
  end.

(** [float(max_sal.strip()) if max_sal.strip() != '+' else float('inf')]. *)
Definition xfloat_of_string (s : string) : result xfloat :=
  match read_float s with
  | PosInf => Ok Inf
  | _ => q <- float_of_string s ;; Ok (Fin q)
  end.

(** [float(v)] where the embedding keeps an upper bound. *)
Definition py_xfloat (v : cell) : result xfloat :=
  match v with
  | CStr s => xfloat_of_string s
  | _ => q <- py_float v ;; Ok (Fin q)
  end.

Definition upper_bound (max_sal : string) : result xfloat :=
  if String.eqb (strip max_sal) "+" then Ok Inf
  else xfloat_of_string (strip max_sal).

Record SSSBracket : Type := {
  sss_min : Q;
  sss_max : xfloat;
  sss_employee_share : Q;
  sss_employer_share : Q
}.

Record PhilHealthBracket : Type := {
  ph_min : Q;
  ph_max : xfloat;
  ph_employee_rate : option Q;
  ph_employee_fixed : option Q;
  ph_employer_rate : option Q;
  ph_employer_fixed : option Q
}.

Record PagibigBracket : Type := {
  pi_min : Q;
  pi_max : xfloat;
  pi_employee_rate : option Q
}.

Record TaxBracket : Type := {
  tax_from : Q;
  tax_to : xfloat;
  tax_base_tax : Q;
  tax_rate : Q
}.

(** The dictionary a parser returns: the key ['brackets'], and the keys
    ['max_contribution'] and ['type'] when present. *)
Record Parsed (B : Type) : Type := {
  brackets : list B;
  max_contribution : option Q;
  ptype : option string
}.

Arguments brackets {B} _.
Arguments max_contribution {B} _.
Arguments ptype {B} _.

Definition is_csv (file_path : string) : bool := endswith file_path ".csv".

Definition is_excel (file_path : string) : bool :=
  endswith file_path ".xlsx" || endswith file_path ".xls".

(** *** parse_sss_file *)

Definition sss_bracket_of (salary_range : string) (emp_share empr_share : cell)
  : result (list SSSBracket) :=
  if contains "-" salary_range then
    parts <- split_range salary_range ;;
    mn <- float_of_string (strip (fst parts)) ;;
    mx <- xfloat_of_string (strip (snd parts)) ;;
    es <- py_float emp_share ;;
    er <- py_float empr_share ;;
    Ok [ {| sss_min := mn; sss_max := mx;
            sss_employee_share := es; sss_employer_share := er |} ]
  else Ok [].

Definition sss_csv_row (acc : list SSSBracket) (row : CsvRow)
  : result (list SSSBracket) :=
  match row_get row "Salary Range" (CStr "") with
  | CStr salary_range =>
      bs <- sss_bracket_of salary_range
              (row_get row "Employee Share" (CNum 0))
              (row_get row "Employer Share" (CNum 0)) ;;
      Ok (acc ++ bs)
  | _ => Raise (TypeError "argument is not iterable")
  end.

Definition sss_xlsx_row (acc : list SSSBracket) (row : XlsRow)
  : result (list SSSBracket) :=
  r0 <- row_at row 0 ;;
  if truthy r0 then
    let salary_range := py_str r0 in
    if contains "-" salary_range then
      parts <- split_range salary_range ;;
      mn <- float_of_string (strip (fst parts)) ;;
      mx <- xfloat_of_string (strip (snd parts)) ;;
      r1 <- row_at row 1 ;;
      es <- py_float (py_or r1 (CNum 0)) ;;
      r2 <- row_at row 2 ;;
      er <- py_float (py_or r2 (CNum 0)) ;;
      Ok (acc ++ [ {| sss_min := mn; sss_max := mx;
                      sss_employee_share := es; sss_employer_share := er |} ])
    else Ok acc
  else Ok acc.

(** The body of the [try] block: the brackets read, by extension. *)
Definition sss_rows (fs : FileSystem) (file_path : string)
  : result (list SSSBracket) :=
  if is_csv file_path then
    rows <- fs_csv fs file_path ;; for_loop sss_csv_row [] rows
  else if is_excel file_path && EXCEL_AVAILABLE fs then
    rows <- fs_xlsx fs file_path ;; for_loop sss_xlsx_row [] rows
  else Ok [].

Definition parse_sss_file (fs : FileSystem) (file_path : string)
  : result (Parsed SSSBracket) :=
  try_except
    (bs <- sss_rows fs file_path ;;
     Ok {| brackets := bs; max_contribution := None; ptype := Some "SSS" |})
    (fun _ => Ok {| brackets := []; max_contribution := None; ptype := None |}).

(** *** parse_philhealth_file *)

(** A share column: a percentage gives a rate, anything else a fixed amount. *)
Definition share_of (share : cell) : result (option Q * option Q) :=
  pct <- py_in "%" share ;;
  if pct then
    s <- py_replace_percent share ;;
    q <- float_of_string s ;;
    Ok (Some (q / 100), None)
  else
    q <- py_float share ;;
    Ok (None, Some q).

Definition philhealth_csv_row (acc : list PhilHealthBracket) (row : CsvRow)
  : result (list PhilHealthBracket) :=
  let salary_range := row_get row "Monthly Salary" (CStr "") in
  let employee_share := row_get row "Employee Share" (CStr "0") in
  let employer_share := row_get row "Employer Share" (CStr "0") in
  emp <- share_of employee_share ;;
  empr <- share_of employer_share ;;
  match salary_range with
  | CStr salary_range =>
      if contains "-" salary_range then
        parts <- split_range salary_range ;;
        mn <- float_of_string (strip (fst parts)) ;;
        mx <- upper_bound (snd parts) ;;
        Ok (acc ++ [ {| ph_min := mn; ph_max := mx;
                        ph_employee_rate := fst emp;
                        ph_employee_fixed := snd emp;
                        ph_employer_rate := fst empr;
                        ph_employer_fixed := snd empr |} ])
      else Ok acc
  | _ => Raise (TypeError "argument is not iterable")
  end.

Definition philhealth_xlsx_row (acc : list PhilHealthBracket) (row : XlsRow)
  : result (list PhilHealthBracket) :=
  r0 <- row_at row 0 ;;
  if truthy r0 then
    let salary_range := py_str r0 in
    if contains "-" salary_range then
      parts <- split_range salary_range ;;
      mn <- float_of_string (strip (fst parts)) ;;
      mx <- upper_bound (snd parts) ;;
      r1 <- row_at row 1 ;;
      let pct := contains "%" (py_str (py_or r1 (CStr ""))) in
      rate <- (if pct then q <- py_float (py_or r1 (CNum 0)) ;; Ok (Some (q / 100))
               else Ok None) ;;
      fixed <- (if negb pct then q <- py_float (py_or r1 (CNum 0)) ;; Ok (Some q)
                else Ok None) ;;
      Ok (acc ++ [ {| ph_min := mn; ph_max := mx;
                      ph_employee_rate := rate;
                      ph_employee_fixed := fixed;
                      ph_employer_rate := None;
                      ph_employer_fixed := None |} ])
    else Ok acc
  else Ok acc.

Definition philhealth_rows (fs : FileSystem) (file_path : string)
  : result (list PhilHealthBracket) :=
  if is_csv file_path then
    rows <- fs_csv fs file_path ;; for_loop philhealth_csv_row [] rows
  else if is_excel file_path && EXCEL_AVAILABLE fs then
    rows <- fs_xlsx fs file_path ;; for_loop philhealth_xlsx_row [] rows
  else Ok [].

Definition parse_philhealth_file (fs : FileSystem) (file_path : string)
  : result (Parsed PhilHealthBracket) :=
  try_except
    (bs <- philhealth_rows fs file_path ;;
     Ok {| brackets := bs; max_contribution := None;
           ptype := Some "PHILHEALTH" |})
    (fun _ => Ok {| brackets := []; max_contribution := None; ptype := None |}).

(** *** parse_pagibig_file *)

(** [float(s.replace('%', '')) / 100 if '%' in s else None]. *)
Definition rate_of (share : cell) : result (option Q) :=
  pct <- py_in "%" share ;;
  if pct then
    s <- py_replace_percent share ;;
    q <- float_of_string s ;;
    Ok (Some (q / 100))
  else Ok None.

(** The loop's variables: the brackets so far and [max_contribution]. *)
Definition pagibig_csv_row (acc : list PagibigBracket * Q) (row : CsvRow)
  : result (list PagibigBracket * Q) :=
  match row_get row "Monthly Salary" (CStr "") with
  | CStr salary_range =>
      if contains "Maximum" salary_range || contains "Max" salary_range then
        m <- py_float (row_get row "Employee Share" (CNum 100)) ;;
        Ok (fst acc, m)
      else
        emp_rate <- rate_of (row_get row "Employee Share" (CStr "0")) ;;
        if contains "-" salary_range then
          parts <- split_range salary_range ;;
          mn <- float_of_string (strip (fst parts)) ;;
          mx <- upper_bound (snd parts) ;;
          Ok (fst acc ++ [ {| pi_min := mn; pi_max := mx;
                              pi_employee_rate := emp_rate |} ], snd acc)
        else Ok acc
  | _ => Raise (TypeError "argument is not iterable")
  end.

Definition pagibig_xlsx_row (acc : list PagibigBracket * Q) (row : XlsRow)
  : result (list PagibigBracket * Q) :=
  r0 <- row_at row 0 ;;
  if truthy r0 then
    let salary_range := py_str r0 in
    if contains "Maximum" salary_range || contains "Max" salary_range then
      r1 <- row_at row 1 ;;
      m <- py_float (py_or r1 (CNum 100)) ;;
      Ok (fst acc, m)
    else if contains "-" salary_range then
      parts <- split_range salary_range ;;
      r1 <- row_at row 1 ;;
      emp_rate <- rate_of (CStr (py_str (py_or r1 (CStr "0")))) ;;
      mn <- float_of_string (strip (fst parts)) ;;
      mx <- upper_bound (snd parts) ;;
      Ok (fst acc ++ [ {| pi_min := mn; pi_max := mx;
                          pi_employee_rate := emp_rate |} ], snd acc)
    else Ok acc
  else Ok acc.

Definition pagibig_rows (fs : FileSystem) (file_path : string)
  : result (list PagibigBracket * Q) :=
  if is_csv file_path then
    rows <- fs_csv fs file_path ;; for_loop pagibig_csv_row ([], 100) rows
  else if is_excel file_path && EXCEL_AVAILABLE fs then
    rows <- fs_xlsx fs file_path ;; for_loop pagibig_xlsx_row ([], 100) rows
  else Ok ([], 100).

Definition parse_pagibig_file (fs : FileSystem) (file_path : string)
  : result (Parsed PagibigBracket) :=
  try_except
    (r <- pagibig_rows fs file_path ;;
     Ok {| brackets := fst r; max_contribution := Some (snd r);
           ptype := Some "PAGIBIG" |})
    (fun _ => Ok {| brackets := []; max_contribution := Some 100;
                    ptype := None |}).

(** *** parse_tax_file *)

Definition tax_csv_row (acc : list TaxBracket) (row : CsvRow)
  : result (list TaxBracket) :=
  from <- py_float (row_get row "Taxable Income From" (CNum 0)) ;;
  to <- match lookup "To" row with
        | Some v => py_xfloat v
        | None => Ok Inf
        end ;;
  base <- py_float (row_get row "Base Tax" (CNum 0)) ;;
  s <- py_replace_percent (row_get row "Rate Over" (CStr "0%")) ;;
  r <- float_of_string s ;;
  Ok (acc ++ [ {| tax_from := from; tax_to := to;
                  tax_base_tax := base; tax_rate := r / 100 |} ]).

Definition tax_xlsx_row (acc : list TaxBracket) (row : XlsRow)
  : result (list TaxBracket) :=
  r0 <- row_at row 0 ;;
  match r0 with
  | CNone => Ok acc
  | _ =>
      r3 <- row_at row 3 ;;
      let rate_str := py_str (py_or r3 (CStr "0%")) in
      from <- py_float (py_or r0 (CNum 0)) ;;
      r1 <- row_at row 1 ;;
      to <- (if truthy r1 then py_xfloat r1 else Ok Inf) ;;
      r2 <- row_at row 2 ;;
      base <- py_float (py_or r2 (CNum 0)) ;;
      r <- float_of_string (remove_char "%"%char rate_str) ;;
      Ok (acc ++ [ {| tax_from := from; tax_to := to;
                      tax_base_tax := base; tax_rate := r / 100 |} ])
  end.

Definition tax_rows (fs : FileSystem) (file_path : string)
  : result (list TaxBracket) :=
  if is_csv file_path then
    rows <- fs_csv fs file_path ;; for_loop tax_csv_row [] rows
  else if is_excel file_path && EXCEL_AVAILABLE fs then
    rows <- fs_xlsx fs file_path ;; for_loop tax_xlsx_row [] rows
  else Ok [].

Definition parse_tax_file (fs : FileSystem) (file_path : string)
  : result (Parsed TaxBracket) :=
  try_except
    (bs <- tax_rows fs file_path ;;
     Ok {| brackets := bs; max_contribution := None; ptype := Some "TAX" |})
    (fun _ => Ok {| brackets := []; max_contribution := None; ptype := None |}).

(** *** parse_compliance_file *)

(** What [parse_compliance_file] returns when it does not return [None]: the
    dictionary of the parser its [type_mapping] selects. *)
Inductive ParsedFile : Type :=
| ParsedSSS (d : Parsed SSSBracket)
| ParsedPhilHealth (d : Parsed PhilHealthBracket)
| ParsedPagibig (d : Parsed PagibigBracket)
| ParsedTax (d : Parsed TaxBracket).

(** Number of brackets in a parsed dictionary. *)
Definition parsed_brackets (p : ParsedFile) : nat :=
  match p with
  | ParsedSSS d => List.length (brackets d)
  | ParsedPhilHealth d => List.length (brackets d)
  | ParsedPagibig d => List.length (brackets d)
  | ParsedTax d => List.length (brackets d)
  end.

Definition parse_compliance_file (fs : FileSystem) (file_type file_path : string)
  : result (option ParsedFile) :=
  if negb (fs_exists fs file_path) then Ok None
  else if String.eqb file_type "SSS Contributions" then
    d <- parse_sss_file fs file_path ;; Ok (Some (ParsedSSS d))
  else if String.eqb file_type "PhilHealth Rates" then
    d <- parse_philhealth_file fs file_path ;; Ok (Some (ParsedPhilHealth d))
  else if String.eqb file_type "Pag-IBIG Rates" then
    d <- parse_pagibig_file fs file_path ;; Ok (Some (ParsedPagibig d))
  else if String.eqb file_type "BIR Tax" then
    d <- parse_tax_file fs file_path ;; Ok (Some (ParsedTax d))
  else Ok None.

(** ** The relational store (models/database.py) *)

Record date : Type := { year : Z; month : Z; day : Z }.

Definition date_compare (a b : date) : comparison :=
  match (year a ?= year b)%Z with
  | Eq => match (month a ?= month b)%Z with
          | Eq => (day a ?= day b)%Z
          | c => c
          end
  | c => c
  end.

Definition date_leb (a b : date) : bool :=
  match date_compare a b with Gt => false | _ => true end.

Definition date_ltb (a b : date) : bool :=
  match date_compare a b with Lt => true | _ => false end.

Definition date_eqb (a b : date) : bool :=
  match date_compare a b with Eq => true | _ => false end.

(** A row of [tax_tables] or of [contribution_tables]; [cf_type] is the
    [type] column of the latter and the [name] column of the former. *)
Record ComplianceFile : Type := {
  cf_id : Z;
  cf_type : string;
  effective_from : date;
  version : Z;
  file_path : string
}.

Record EmployeeRow : Type := {
  row_id : Z;
  row_base_salary : option Q;
  row_hourly_rate : option Q;
  row_salary_type : option string;
  row_is_active : bool
}.

Record AttendanceRow : Type := {
  att_employee_id : Z;
  attendance_date : date;
  att_status : option string;
  regular_hours : option Q;
  overtime_hours : option Q;
  night_differential_hours : option Q;
  late_minutes : option Z;
  undertime_minutes : option Z;
  is_holiday : option Z;
  is_rest_day : option Z
}.

Record PayrollPeriod : Type := {
  pp_id : Z;
  pp_start_date : date;
  pp_end_date : date
}.

(** The money columns of [payroll_entries], in the order the [INSERT] and the
    [UPDATE] of [_save_payroll_entry] list them. *)
Record EntryValues : Type := {
  v_basic_pay : option Q;
  v_overtime_pay : option Q;
  v_allowances : option Q;
  v_holiday_pay : option Q;
  v_vacation_sickleave : option Q;
  v_salary_adjustment : option Q;
  v_incentive_pay : option Q;
  v_gross_pay : option Q;
  v_sss_contrib : option Q;
  v_philhealth_contrib : option Q;
  v_pagibig_contrib : option Q;
  v_withholding_tax : option Q;
  v_late_deduction : option Q;
  v_cash_advance : option Q;
  v_undertime_deduction : option Q;
  v_other_deductions : option Q;
  v_total_deductions : option Q;
  v_net_pay : option Q;
  v_status : option string
}.

Record PayrollEntry : Type := {
  pe_id : Z;
  pe_payroll_period_id : Z;
  pe_employee_id : Z;
  pe_values : EntryValues
}.

Record HistoryRow : Type := {
  h_id : Z;
  h_payroll_entry_id : Z;
  h_payroll_period_id : Z;
  h_employee_id : Z;
  h_transaction_type : string;
  h_previous_status : option string;
  h_new_status : option string;
  h_previous_gross_pay : option Q;
  h_new_gross_pay : option Q;
  h_previous_net_pay : option Q;
  h_new_net_pay : option Q;
  h_changed_by : option Z;
  h_notes : option string
}.

(** The tables the engine reads and writes, and [CURDATE()]. *)
Record Database : Type := {
  employees : list EmployeeRow;
  attendance : list AttendanceRow;
  system_settings : list (string * string);
  payroll_periods : list PayrollPeriod;
  payroll_entries : list PayrollEntry;
  payroll_transaction_history : list HistoryRow;
  tax_tables : list ComplianceFile;
  contribution_tables : list ComplianceFile;
  curdate : date
}.







(** ** Rate-table lookup and statutory deductions
       (models/compliance_model.py) *)

Definition upper_char (a : ascii) : ascii :=
  let n := nat_of_ascii a in
  if (97 <=? n)%nat && (n <=? 122)%nat then ascii_of_nat (n - 32) else a.

Fixpoint upper (s : string) : string :=
  match s with
  | EmptyString => EmptyString
  | String a rest => String (upper_char a) (upper rest)
  end.

(** [type_mapping.get(file_type, file_type.upper())]. *)
Definition db_type_of (file_type : string) : string :=
  if String.eqb file_type "BIR Tax" then "TAX"
  else if String.eqb file_type "SSS Contributions" then "SSS"
  else if String.eqb file_type "PhilHealth Rates" then "PHILHEALTH"
  else if String.eqb file_type "Pag-IBIG Rates" then "PAGIBIG"
  else upper file_type.

(** [a] comes before [b] under
    [ORDER BY effective_from DESC, version DESC]. *)
Definition sorts_before (a b : ComplianceFile) : bool :=
  date_ltb (effective_from b) (effective_from a) ||
  (date_eqb (effective_from a) (effective_from b) && (version b <? version a)%Z).

(** [ORDER BY effective_from DESC, version DESC LIMIT 1]. *)
Definition order_limit_1 (rows : list ComplianceFile) : option ComplianceFile :=
  fold_left
    (fun best r =>
       match best with
       | None => Some r
       | Some b => if sorts_before r b then Some r else Some b
       end)
    rows None.

(** The date the [WHERE] clause compares [effective_from] with is
    [CURDATE()]: the function has no date argument. *)
Definition get_latest_compliance_file (db : Database) (file_type : string)
  : option ComplianceFile :=
  let db_type := db_type_of file_type in
  if String.eqb db_type "TAX" then
    order_limit_1
      (filter (fun r => date_leb (effective_from r) (curdate db))
              (tax_tables db))
  else
    order_limit_1
      (filter (fun r => String.eqb (cf_type r) db_type &&
                        date_leb (effective_from r) (curdate db))
              (contribution_tables db)).

Record Deductions : Type := {
  sss : Q;
  philhealth : Q;
  pagibig : Q;
  tax : Q
}.

(** The built-in rules, each written twice in the source (once for "no
    file", once for "no brackets parsed"). *)
Definition default_sss (gross_pay : Q) : Q :=
  if Qle_bool gross_pay 3250 then 135
  else if Qle_bool gross_pay 24750 then py_min (gross_pay * 0.045) 1125
  else 1125.

Definition default_philhealth (gross_pay : Q) : Q :=
  if Qle_bool gross_pay 10000 then 300
  else if Qle_bool gross_pay 80000 then gross_pay * 0.03
  else 2400.

Definition default_pagibig (gross_pay : Q) : Q :=
  if Qle_bool gross_pay 1500 then gross_pay * 0.01
  else py_min (gross_pay * 0.02) 100.

Definition default_tax (taxable : Q) : Q :=
  if Qle_bool taxable 20833 then 0
  else if Qle_bool taxable 33332 then (taxable - 20833) * 0.20
  else if Qle_bool taxable 66666 then 2500 + (taxable - 33332) * 0.25
  else if Qle_bool taxable 166666 then 10833 + (taxable - 66666) * 0.30
  else 40833 + (taxable - 166666) * 0.32.

(** [x.get(k)] used as a condition: present, not [None] and not zero. *)
Definition opt_truthy (o : option Q) : bool :=
  match o with Some q => Q_truthy q | None => false end.

Definition opt_value (o : option Q) : Q :=
  match o with Some q => q | None => 0 end.

(** The bracket loops: the first bracket in range decides, and the amount
    stays [0.0] when none is. *)
Definition sss_from_brackets (bs : list SSSBracket) (gross_pay : Q) : Q :=
  match find (fun b => Qle_bool (sss_min b) gross_pay &&
                       Qle_x gross_pay (sss_max b)) bs with
  | Some b => sss_employee_share b
  | None => 0
  end.

Definition philhealth_from_brackets (bs : list PhilHealthBracket) (gross_pay : Q)
  : Q :=
  match find (fun b => Qle_bool (ph_min b) gross_pay &&
                       Qle_x gross_pay (ph_max b)) bs with
  | Some b =>
      if opt_truthy (ph_employee_fixed b) then opt_value (ph_employee_fixed b)
      else if opt_truthy (ph_employee_rate b)
           then gross_pay * opt_value (ph_employee_rate b)
           else 0
  | None => 0
  end.

Definition pagibig_from_brackets (bs : list PagibigBracket) (max_contrib : Q)
    (gross_pay : Q) : Q :=
  match find (fun b => Qle_bool (pi_min b) gross_pay &&
                       Qle_x gross_pay (pi_max b)) bs with
  | Some b =>
      if opt_truthy (pi_employee_rate b)
      then py_min (gross_pay * opt_value (pi_employee_rate b)) max_contrib
      else 0
  | None => 0
  end.

(** [bracket['from'] <= taxable < bracket['to']]. *)
Definition in_tax_bracket (taxable : Q) (b : TaxBracket) : bool :=
  Qle_bool (tax_from b) taxable && Qlt_x taxable (tax_to b).

(** The specification's wording of that test, [from <= taxable < to], on
    the rationals; an open-ended bracket has no upper bound. *)
Definition below (q : Q) (bound : xfloat) : Prop :=
  match bound with Fin m => (q < m)%Q | Inf => True end.

Definition from_le_taxable_lt_to (taxable : Q) (b : TaxBracket) : Prop :=
  (tax_from b <= taxable)%Q /\ below taxable (tax_to b).

Definition tax_from_brackets (bs : list TaxBracket) (taxable : Q) : Q :=
  match find (in_tax_bracket taxable) bs with
  | Some b => tax_base_tax b + (taxable - tax_from b) * tax_rate b
  | None => 0
  end.

Definition nonempty {A : Type} (l : list A) : bool :=
  match l with [] => false | _ => true end.

(** [f and f.get('file_path')], then [parse_compliance_file]: the parsed
    dictionary, or [None] when there is no file to parse. *)
Definition parsed_upload (fs : FileSystem) (file_type : string)
    (file : option ComplianceFile) : result (option ParsedFile) :=
  match file with
  | Some f =>
      if negb (String.eqb (file_path f) "")
      then parse_compliance_file fs file_type (file_path f)
      else Ok None
  | None => Ok None
  end.

(** No uploaded table of the type applies: there is no current row, or its
    path is empty, or the file is missing, or no bracket was parsed from it. *)
Definition uses_default (db : Database) (fs : FileSystem) (file_type : string)
  : bool :=
  match parsed_upload fs file_type (get_latest_compliance_file db file_type) with
  | Ok (Some p) => (parsed_brackets p =? 0)%nat
  | _ => true
  end.

(** The four blocks of [calculate_compliance_deductions]: the uploaded
    brackets when [parsed_data and parsed_data.get('brackets')], the built-in
    rule otherwise. *)
Definition sss_deduction (fs : FileSystem) (sss_file : option ComplianceFile)
    (gross_pay : Q) : result Q :=
  parsed_data <- parsed_upload fs "SSS Contributions" sss_file ;;
  match parsed_data with
  | Some (ParsedSSS d) =>
      if nonempty (brackets d)
      then Ok (sss_from_brackets (brackets d) gross_pay)
      else Ok (default_sss gross_pay)
  | _ => Ok (default_sss gross_pay)
  end.

Definition philhealth_deduction (fs : FileSystem)
    (philhealth_file : option ComplianceFile) (gross_pay : Q) : result Q :=
  parsed_data <- parsed_upload fs "PhilHealth Rates" philhealth_file ;;
  match parsed_data with
  | Some (ParsedPhilHealth d) =>
      if nonempty (brackets d)
      then Ok (philhealth_from_brackets (brackets d) gross_pay)
      else Ok (default_philhealth gross_pay)
  | _ => Ok (default_philhealth gross_pay)
  end.

Definition pagibig_deduction (fs : FileSystem)
    (pagibig_file : option ComplianceFile) (gross_pay : Q) : result Q :=
  parsed_data <- parsed_upload fs "Pag-IBIG Rates" pagibig_file ;;
  match parsed_data with
  | Some (ParsedPagibig d) =>
      if nonempty (brackets d)
      then
        let max_contrib :=
          match max_contribution d with Some m => m | None => 100 end in
        Ok (pagibig_from_brackets (brackets d) max_contrib gross_pay)
      else Ok (default_pagibig gross_pay)
  | _ => Ok (default_pagibig gross_pay)
  end.

Definition tax_deduction (fs : FileSystem) (tax_file : option ComplianceFile)
    (taxable : Q) : result Q :=
  parsed_data <- parsed_upload fs "BIR Tax" tax_file ;;
  match parsed_data with
  | Some (ParsedTax d) =>
      if nonempty (brackets d)
      then Ok (tax_from_brackets (brackets d) taxable)
      else Ok (default_tax taxable)
  | _ => Ok (default_tax taxable)
  end.

(** [period_date] is a parameter of the source function; its body never
    reads it. *)
Definition calculate_compliance_deductions (db : Database) (fs : FileSystem)
    (gross_pay : Q) (period_date : date) : result Deductions :=
  let sss_file := get_latest_compliance_file db "SSS Contributions" in
  let philhealth_file := get_latest_compliance_file db "PhilHealth Rates" in
  let pagibig_file := get_latest_compliance_file db "Pag-IBIG Rates" in
  let tax_file := get_latest_compliance_file db "BIR Tax" in
  s <- sss_deduction fs sss_file gross_pay ;;
  p <- philhealth_deduction fs philhealth_file gross_pay ;;
  g <- pagibig_deduction fs pagibig_file gross_pay ;;
  let taxable := gross_pay - (s + p + g) in
  t <- tax_deduction fs tax_file taxable ;;
  Ok {| sss := s; philhealth := p; pagibig := g; tax := t |}.

(** ** Employees and settings (models/employee_model.py,
       models/timekeeping_model.py) *)

(** The [Employee] dataclass, with the fields the engine reads. *)
Record Employee : Type := {
  id : Z;
  base_salary : Q;
  hourly_rate : Q;
  salary_type : option string;
  is_active : bool
}.

Definition null_float (o : option Q) : result Q :=
  match o with
  | Some q => Ok q
  | None => Raise (TypeError "float() argument must be a string or a real number")
  end.

Definition null_int (o : option Z) : result Z :=
  match o with
  | Some z => Ok z
  | None => Raise (TypeError "int() argument must be a string or a real number")
  end.

(** [bool(v)] of a nullable [TINYINT]. *)
Definition null_bool (o : option Z) : bool :=
  match o with
  | Some z => negb (z =? 0)%Z
  | None => false
  end.

(** [None] when no row has the id; [float(None)] raises on a [NULL] salary
    or hourly rate. *)
Definition get_employee_by_id (db : Database) (employee_id : Z)
  : result (option Employee) :=
  match find (fun r => (row_id r =? employee_id)%Z) (employees db) with
  | None => Ok None
  | Some row =>
      b <- null_float (row_base_salary row) ;;
      h <- null_float (row_hourly_rate row) ;;
      Ok (Some {| id := row_id row;
                  base_salary := b;
                  hourly_rate := h;
                  salary_type := row_salary_type row;
                  is_active := row_is_active row |})
  end.

Definition numeric_settings : list string :=
  [ "regular_work_hours_per_day"; "overtime_rate_multiplier";
    "night_differential_rate"; "holiday_rate_multiplier";
    "rest_day_rate_multiplier" ].

Definition mem_string (k : string) (l : list string) : bool :=
  existsb (String.eqb k) l.

(** The numeric entries of the settings dictionary; the time-valued keys the
    query also selects are kept as strings and are not read by the payroll
    computation, so they are left out.  A later row overrides an earlier
    one. *)
Definition get_company_work_settings (db : Database)
  : result (list (string * Q)) :=
  for_loop
    (fun settings row =>
       if mem_string (fst row) numeric_settings then
         v <- float_of_string (snd row) ;;
         Ok ((fst row, v) :: settings)
       else Ok settings)
    [] (system_settings db).

(** [settings.get(key, default)]. *)
Definition settings_get (settings : list (string * Q)) (key : string)
    (default : Q) : Q :=
  match lookup key settings with
  | Some v => v
  | None => default
  end.

(** ** Payroll computation (models/payroll_computation_model.py) *)

Definition str_eq (o : option string) (s : string) : bool :=
  match o with Some t => String.eqb t s | None => false end.

Definition calculate_hourly_rate_from_salary (base_salary : Q)
    (salary_type : option string) : Q :=
  if str_eq salary_type "HOURLY" then base_salary
  else if str_eq salary_type "DAILY" then base_salary / 8
  else if str_eq salary_type "MONTHLY" then base_salary / 176
  else base_salary / 176.

(** [ORDER BY attendance_date]. *)
Fixpoint insert_by_date (r : AttendanceRow) (l : list AttendanceRow)
  : list AttendanceRow :=
  match l with
  | [] => [r]
  | x :: rest =>
      if date_ltb (attendance_date r) (attendance_date x)
      then r :: l
      else x :: insert_by_date r rest
  end.

Definition order_by_date (l : list AttendanceRow) : list AttendanceRow :=
  fold_left (fun acc r => insert_by_date r acc) l [].

Definition get_attendance_for_period (db : Database) (employee_id : Z)
    (start_date end_date : date) : list AttendanceRow :=
  order_by_date
    (filter
       (fun r =>
          (att_employee_id r =? employee_id)%Z &&
          date_leb start_date (attendance_date r) &&
          date_leb (attendance_date r) end_date &&
          (str_eq (att_status r) "PRESENT" || str_eq (att_status r) "LATE"))
       (attendance db)).

(** The running totals of the attendance loop. *)
Record Totals : Type := {
  t_regular_hours : Q;
  t_overtime_hours : Q;
  t_night_diff_hours : Q;
  t_late_minutes : Z;
  t_undertime_minutes : Z;
  t_holiday_hours : Q;
  t_rest_day_hours : Q
}.

Definition zero_totals : Totals :=
  {| t_regular_hours := 0; t_overtime_hours := 0; t_night_diff_hours := 0;
     t_late_minutes := 0; t_undertime_minutes := 0;
     t_holiday_hours := 0; t_rest_day_hours := 0 |}.

(** One round of [for record in attendance_records]. *)
Definition add_record (t : Totals) (record : AttendanceRow) : result Totals :=
  reg <- null_float (regular_hours record) ;;
  ot <- null_float (overtime_hours record) ;;
  nd <- null_float (night_differential_hours record) ;;
  late <- null_int (late_minutes record) ;;
  under <- null_int (undertime_minutes record) ;;
  let holiday := null_bool (is_holiday record) in
  let rest_day := null_bool (is_rest_day record) in
  Ok {| t_regular_hours := t_regular_hours t + reg;
        t_overtime_hours := t_overtime_hours t + ot;
        t_night_diff_hours := t_night_diff_hours t + nd;
        t_late_minutes := (t_late_minutes t + late)%Z;
        t_undertime_minutes := (t_undertime_minutes t + under)%Z;
        t_holiday_hours :=
          if holiday then t_holiday_hours t + reg else t_holiday_hours t;
        t_rest_day_hours :=
          if rest_day then t_rest_day_hours t + reg else t_rest_day_hours t |}.

(** The dictionary [calculate_payroll_for_employee] returns. *)
Record PayrollData : Type := {
  employee_id : Z;
  payroll_period_id : Z;
  basic_pay : Q;
  overtime_pay : Q;
  allowances : Q;
  holiday_pay : Q;
  vacation_sickleave : Q;
  salary_adjustment : Q;
  incentive_pay : Q;
  night_differential_pay : Q;
  rest_day_pay : Q;
  gross_pay : Q;
  sss_contrib : Q;
  philhealth_contrib : Q;
  pagibig_contrib : Q;
  withholding_tax : Q;
  late_deduction : Q;
  cash_advance : Q;
  undertime_deduction : Q;
  other_deductions : Q;
  total_deductions : Q;
  net_pay : Q;
  status : string;
  total_regular_hours : Q;
  total_overtime_hours : Q;
  total_night_diff_hours : Q;
  total_late_minutes : Z;
  total_undertime_minutes : Z
}.

(** The employee's hourly rate: the explicit one when positive, else the
    one derived from the salary. *)
Definition effective_hourly_rate (employee : Employee) : Q :=
  if Qlt_bool 0 (hourly_rate employee) then hourly_rate employee
  else calculate_hourly_rate_from_salary (base_salary employee)
         (salary_type employee).

(** The amounts [calculate_payroll_for_employee] holds in its local
    variables before it rounds them: the five attendance-based earnings and
    the two attendance-based deductions. *)
Record PayLines : Type := {
  l_basic_pay : Q;
  l_overtime_pay : Q;
  l_night_differential_pay : Q;
  l_holiday_pay : Q;
  l_rest_day_pay : Q;
  l_late_deduction : Q;
  l_undertime_deduction : Q
}.

Definition pay_lines (hourly_rate : Q) (settings : list (string * Q))
    (t : Totals) : PayLines :=
  {| l_basic_pay := t_regular_hours t * hourly_rate;
     l_overtime_pay :=
       t_overtime_hours t * hourly_rate *
       settings_get settings "overtime_rate_multiplier" 1.25;
     l_night_differential_pay :=
       t_night_diff_hours t * hourly_rate *
       settings_get settings "night_differential_rate" 0.10;
     l_holiday_pay :=
       t_holiday_hours t * hourly_rate *
       settings_get settings "holiday_rate_multiplier" 2.0;
     l_rest_day_pay :=
       t_rest_day_hours t * hourly_rate *
       settings_get settings "rest_day_rate_multiplier" 1.3;
     l_late_deduction := inject_Z (t_late_minutes t) * (hourly_rate / 60);
     l_undertime_deduction :=
       inject_Z (t_undertime_minutes t) * (hourly_rate / 60) |}.

(** [gross_pay] and [total_deductions] before rounding; the zeros are the
    manual fields. *)
Definition lines_gross (l : PayLines) : Q :=
  l_basic_pay l + l_overtime_pay l + l_night_differential_pay l +
  l_holiday_pay l + l_rest_day_pay l + 0 + 0 + 0 + 0.

Definition lines_deductions (l : PayLines) (d : Deductions) : Q :=
  sss d + philhealth d + pagibig d + tax d + l_late_deduction l + 0 +
  l_undertime_deduction l + 0.

(** The arithmetic of [calculate_payroll_for_employee], from the totals of
    the attendance loop to the returned dictionary. *)
Definition payroll_of_totals (db : Database) (fs : FileSystem)
    (employee_id period_id : Z) (start_date : date)
    (hourly_rate : Q) (settings : list (string * Q)) (t : Totals)
  : result PayrollData :=
  let basic_pay := t_regular_hours t * hourly_rate in
  let overtime_rate_multiplier :=
    settings_get settings "overtime_rate_multiplier" 1.25 in
  let overtime_pay :=
    t_overtime_hours t * hourly_rate * overtime_rate_multiplier in
  let night_diff_rate := settings_get settings "night_differential_rate" 0.10 in
  let night_differential_pay :=
    t_night_diff_hours t * hourly_rate * night_diff_rate in
  let holiday_rate_multiplier :=
    settings_get settings "holiday_rate_multiplier" 2.0 in
  let holiday_pay := t_holiday_hours t * hourly_rate * holiday_rate_multiplier in
  let rest_day_rate_multiplier :=
    settings_get settings "rest_day_rate_multiplier" 1.3 in
  let rest_day_pay :=
    t_rest_day_hours t * hourly_rate * rest_day_rate_multiplier in
  let late_deduction_rate := hourly_rate / 60 in
  let late_deduction := inject_Z (t_late_minutes t) * late_deduction_rate in
  let undertime_deduction_rate := hourly_rate / 60 in
  let undertime_deduction :=
    inject_Z (t_undertime_minutes t) * undertime_deduction_rate in
  let allowances := 0 in
  let vacation_sickleave := 0 in
  let salary_adjustment := 0 in
  let incentive_pay := 0 in
  let gross_pay :=
    basic_pay + overtime_pay + night_differential_pay + holiday_pay +
    rest_day_pay + allowances + vacation_sickleave +
    salary_adjustment + incentive_pay in
  let period_date := start_date in
  compliance_deductions <-
    calculate_compliance_deductions db fs gross_pay period_date ;;
  let sss_contrib := sss compliance_deductions in
  let philhealth_contrib := philhealth compliance_deductions in
  let pagibig_contrib := pagibig compliance_deductions in
  let withholding_tax := tax compliance_deductions in
  let cash_advance := 0 in
  let other_deductions := 0 in
  let total_deductions :=
    sss_contrib + philhealth_contrib + pagibig_contrib +
    withholding_tax + late_deduction + cash_advance +
    undertime_deduction + other_deductions in
  let net_pay := gross_pay - total_deductions in
  Ok {| employee_id := employee_id;
        payroll_period_id := period_id;
        basic_pay := round2 basic_pay;
        overtime_pay := round2 overtime_pay;
        allowances := round2 allowances;
        holiday_pay := round2 holiday_pay;
        vacation_sickleave := round2 vacation_sickleave;
        salary_adjustment := round2 salary_adjustment;
        incentive_pay := round2 incentive_pay;
        night_differential_pay := round2 night_differential_pay;
        rest_day_pay := round2 rest_day_pay;
        gross_pay := round2 gross_pay;
        sss_contrib := round2 sss_contrib;
        philhealth_contrib := round2 philhealth_contrib;
        pagibig_contrib := round2 pagibig_contrib;
        withholding_tax := round2 withholding_tax;
        late_deduction := round2 late_deduction;
        cash_advance := round2 cash_advance;
        undertime_deduction := round2 undertime_deduction;
        other_deductions := round2 other_deductions;
        total_deductions := round2 total_deductions;
        net_pay := round2 net_pay;
        status := "PENDING";
        total_regular_hours := t_regular_hours t;
        total_overtime_hours := t_overtime_hours t;
        total_night_diff_hours := t_night_diff_hours t;
        total_late_minutes := t_late_minutes t;
        total_undertime_minutes := t_undertime_minutes t |}.

Definition calculate_payroll_for_employee (db : Database) (fs : FileSystem)
    (employee_id period_id : Z) (start_date end_date : date)
  : result PayrollData :=
  found <- get_employee_by_id db employee_id ;;
  match found with
  | None => Raise (ValueError "Employee not found")
  | Some employee =>
      settings <- get_company_work_settings db ;;
      let hourly_rate := effective_hourly_rate employee in
      let attendance_records :=
        get_attendance_for_period db employee_id start_date end_date in
      totals <- for_loop add_record zero_totals attendance_records ;;
      payroll_of_totals db fs employee_id period_id start_date
        hourly_rate settings totals
  end.

(** ** History logging (models/payroll_transaction_history.py) *)



(** ** Upsert of a payroll entry *)
















(** ** The period run *)








(** ** Vocabulary of the statements about the parsers *)










(** * Sample data *)

Definition mkdate (y m d : Z) : date := {| year := y; month := m; day := d |}.

(** No uploaded document at all. *)
Definition no_files : FileSystem :=
  {| fs_exists := fun _ => false;
     fs_csv := fun _ => Raise OSError;
     fs_xlsx := fun _ => Raise OSError;
     EXCEL_AVAILABLE := true |}.



Definition one_csv (path : string) (rows : list CsvRow) : FileSystem :=
  {| fs_exists := fun p => String.eqb p path;
     fs_csv := fun p => if String.eqb p path then Ok rows else Raise OSError;
     fs_xlsx := fun _ => Raise OSError;
     EXCEL_AVAILABLE := true |}.

Definition empty_db (today : date) : Database :=
  {| employees := [];
     attendance := [];
     system_settings := [];
     payroll_periods := [];
     payroll_entries := [];
     payroll_transaction_history := [];
     tax_tables := [];
     contribution_tables := [];
     curdate := today |}.

(** Two versions of the SSS table, effective 1 January and 1 June 2024, seen
    on 15 July 2024. *)
Definition sss_january : ComplianceFile :=
  {| cf_id := 1; cf_type := "SSS"; effective_from := mkdate 2024 1 1;
     version := 1; file_path := "SSS_20240101_v1.csv" |}.

Definition sss_june : ComplianceFile :=
  {| cf_id := 2; cf_type := "SSS"; effective_from := mkdate 2024 6 1;
     version := 2; file_path := "SSS_20240601_v2.csv" |}.

Definition two_versions_db : Database :=
  {| employees := [];
     attendance := [];
     system_settings := [];
     payroll_periods := [];
     payroll_entries := [];
     payroll_transaction_history := [];
     tax_tables := [];
     contribution_tables := [sss_january; sss_june];
     curdate := mkdate 2024 7 15 |}.

Definition one_bracket_sss (share : string) : list CsvRow :=
  [ [ ("Salary Range", CStr "0-100000"); ("Employee Share", CStr share);
      ("Employer Share", CStr share) ] ].

(** The January table charges 100.00, the June table 200.00. *)
Definition two_versions_fs : FileSystem :=
  {| fs_exists := fun p => String.eqb p "SSS_20240101_v1.csv" ||
                           String.eqb p "SSS_20240601_v2.csv";
     fs_csv := fun p =>
       if String.eqb p "SSS_20240101_v1.csv" then Ok (one_bracket_sss "100.00")
       else if String.eqb p "SSS_20240601_v2.csv"
            then Ok (one_bracket_sss "200.00")
            else Raise OSError;
     fs_xlsx := fun _ => Raise OSError;
     EXCEL_AVAILABLE := true |}.

(** An uploaded tax table with the first three brackets of the docstring. *)
Definition tax_rows_2024 : list CsvRow :=
  [ [ ("Taxable Income From", CStr "0"); ("To", CStr "20833");
      ("Base Tax", CStr "0.00"); ("Rate Over", CStr "0%") ];
    [ ("Taxable Income From", CStr "20833"); ("To", CStr "33332");
      ("Base Tax", CStr "0.00"); ("Rate Over", CStr "20%") ];
    [ ("Taxable Income From", CStr "33332"); ("To", CStr "66666");
      ("Base Tax", CStr "2500.00"); ("Rate Over", CStr "25%") ] ].

Definition tax_upload_fs : FileSystem :=
  one_csv "TAX_20240101_v1.csv" tax_rows_2024.

Definition tax_upload_db : Database :=
  {| employees := [];
     attendance := [];
     system_settings := [];
     payroll_periods := [];
     payroll_entries := [];
     payroll_transaction_history := [];
     tax_tables :=
       [ {| cf_id := 1; cf_type := "BIR Tax";
            effective_from := mkdate 2024 1 1; version := 1;
            file_path := "TAX_20240101_v1.csv" |} ];
     contribution_tables := [];
     curdate := mkdate 2024 7 15 |}.

Definition present (e : Z) (dt : date) (reg ot nd : Q) (late under : Z)
    (holiday rest : Z) : AttendanceRow :=
  {| att_employee_id := e; attendance_date := dt;
     att_status := Some "PRESENT";
     regular_hours := Some reg; overtime_hours := Some ot;
     night_differential_hours := Some nd;
     late_minutes := Some late; undertime_minutes := Some under;
     is_holiday := Some holiday; is_rest_day := Some rest |}.

(** An employee with no hourly rate and no salary, who worked a day. *)
Definition zero_rate_db : Database :=
  {| employees :=
       [ {| row_id := 1; row_base_salary := Some 0;
            row_hourly_rate := Some 0;
            row_salary_type := Some "MONTHLY"; row_is_active := true |} ];
     attendance := [ present 1 (mkdate 2024 1 2) 8 2 1 10 5 1 0 ];
     system_settings := [ ("overtime_rate_multiplier", "1.25") ];
     payroll_periods :=
       [ {| pp_id := 1; pp_start_date := mkdate 2024 1 1;
            pp_end_date := mkdate 2024 1 15 |} ];
     payroll_entries := [];
     payroll_transaction_history := [];
     tax_tables := [];
     contribution_tables := [];
     curdate := mkdate 2024 7 15 |}.




(** * Properties *)

(** ** The result monad *)

Lemma bind_ok {A B : Type} (m : result A) (k : A -> result B) (b : B) :
  bind m k = Ok b -> exists a, m = Ok a /\ k a = Ok b.
Proof.
  destruct m as [a | e]; simpl; intros H.
  - exists a; split; [reflexivity | exact H].
  - discriminate H.
Qed.

Lemma try_except_total {A : Type} (body : result A) (handler : exn -> A) :
  exists a, try_except body (fun e => Ok (handler e)) = Ok a.
Proof.
  destruct body as [a | e]; simpl; eauto.
Qed.



(** ** The parsers never raise *)

Lemma parse_sss_file_total fs file_path :
  exists d, parse_sss_file fs file_path = Ok d.
Proof.
  unfold parse_sss_file.
  destruct (sss_rows fs file_path); simpl; eauto.
Qed.

Lemma parse_philhealth_file_total fs file_path :
  exists d, parse_philhealth_file fs file_path = Ok d.
Proof.
  unfold parse_philhealth_file.
  destruct (philhealth_rows fs file_path); simpl; eauto.
Qed.

Lemma parse_pagibig_file_total fs file_path :
  exists d, parse_pagibig_file fs file_path = Ok d.
Proof.
  unfold parse_pagibig_file.
  destruct (pagibig_rows fs file_path); simpl; eauto.
Qed.

Lemma parse_tax_file_total fs file_path :
  exists d, parse_tax_file fs file_path = Ok d.
Proof.
  unfold parse_tax_file.
  destruct (tax_rows fs file_path); simpl; eauto.
Qed.

Lemma parse_compliance_file_total fs file_type file_path :
  exists r, parse_compliance_file fs file_type file_path = Ok r.
Proof.
  unfold parse_compliance_file.
  destruct (fs_exists fs file_path); simpl; [| eauto].
  destruct (String.eqb file_type "SSS Contributions").
  { destruct (parse_sss_file_total fs file_path) as [d ->]; simpl; eauto. }
  destruct (String.eqb file_type "PhilHealth Rates").
  { destruct (parse_philhealth_file_total fs file_path) as [d ->]; simpl; eauto. }
  destruct (String.eqb file_type "Pag-IBIG Rates").
  { destruct (parse_pagibig_file_total fs file_path) as [d ->]; simpl; eauto. }
  destruct (String.eqb file_type "BIR Tax").
  { destruct (parse_tax_file_total fs file_path) as [d ->]; simpl; eauto. }
  eauto.
Qed.

(** The dictionary has the shape of the parser the type selects. *)
Lemma parse_compliance_file_sss fs file_path r :
  parse_compliance_file fs "SSS Contributions" file_path = Ok r ->
  r = None \/ exists d, r = Some (ParsedSSS d).
Proof.
  unfold parse_compliance_file.
  destruct (fs_exists fs file_path); simpl.
  - destruct (parse_sss_file fs file_path); simpl; intros H;
      inversion H; eauto.
  - intros H; inversion H; auto.
Qed.

Lemma parse_compliance_file_tax fs file_path r :
  parse_compliance_file fs "BIR Tax" file_path = Ok r ->
  r = None \/ exists d, r = Some (ParsedTax d).
Proof.
  unfold parse_compliance_file.
  destruct (fs_exists fs file_path); simpl.
  - destruct (parse_tax_file fs file_path); simpl; intros H;
      inversion H; eauto.
  - intros H; inversion H; auto.
Qed.

Lemma Ok_inj {A : Type} (a b : A) : Ok a = Ok b -> a = b.
Proof.
  intros H; inversion H; reflexivity.
Qed.

(** ** Failure recovery of the parsers *)


Section ReadRows.

Context {S : Type}.
Variable csv_row : S -> CsvRow -> result S.
Variable xlsx_row : S -> XlsRow -> result S.
Variable init : S.
Variable fs : FileSystem.
Variable file_path : string.






End ReadRows.









(** Every row of a tax table in CSV yields one bracket. *)
Lemma tax_csv_rows_length rows :
  forall acc bs,
    for_loop tax_csv_row acc rows = Ok bs ->
    List.length bs = (List.length acc + List.length rows)%nat.
Proof.
  induction rows as [| row rest IH]; intros acc bs; simpl.
  - intros H; inversion H; subst. lia.
  - intros H. apply bind_ok in H. destruct H as [acc' [Hrow Hrest]].
    apply IH in Hrest. rewrite Hrest.
    unfold tax_csv_row in Hrow.
    repeat (apply bind_ok in Hrow; destruct Hrow as [? [_ Hrow]]).
    inversion Hrow; subst. rewrite length_app. simpl. lia.
Qed.




(** ** Statutory deductions *)

Lemma parsed_upload_total fs file_type file :
  exists r, parsed_upload fs file_type file = Ok r.
Proof.
  unfold parsed_upload.
  destruct file as [f |]; [| eauto].
  destruct (negb (String.eqb (file_path f) "")); [| eauto].
  apply parse_compliance_file_total.
Qed.

Lemma sss_deduction_total fs file gross_pay :
  exists q, sss_deduction fs file gross_pay = Ok q.
Proof.
  unfold sss_deduction.
  destruct (parsed_upload_total fs "SSS Contributions" file) as [r ->].
  simpl. destruct r as [[d | d | d | d] |]; eauto.
  destruct (nonempty (brackets d)); eauto.
Qed.

Lemma philhealth_deduction_total fs file gross_pay :
  exists q, philhealth_deduction fs file gross_pay = Ok q.
Proof.
  unfold philhealth_deduction.
  destruct (parsed_upload_total fs "PhilHealth Rates" file) as [r ->].
  simpl. destruct r as [[d | d | d | d] |]; eauto.
  destruct (nonempty (brackets d)); eauto.
Qed.

Lemma pagibig_deduction_total fs file gross_pay :
  exists q, pagibig_deduction fs file gross_pay = Ok q.
Proof.
  unfold pagibig_deduction.
  destruct (parsed_upload_total fs "Pag-IBIG Rates" file) as [r ->].
  simpl. destruct r as [[d | d | d | d] |]; eauto.
  destruct (nonempty (brackets d)); eauto.
Qed.

Lemma tax_deduction_total fs file taxable :
  exists q, tax_deduction fs file taxable = Ok q.
Proof.
  unfold tax_deduction.
  destruct (parsed_upload_total fs "BIR Tax" file) as [r ->].
  simpl. destruct r as [[d | d | d | d] |]; eauto.
  destruct (nonempty (brackets d)); eauto.
Qed.

(** The calculator always returns, and its four amounts are those of the
    four blocks, the tax block being run on
    [gross_pay - (sss + philhealth + pagibig)]. *)
Lemma calculate_compliance_deductions_total db fs gross_pay period_date :
  exists d,
    calculate_compliance_deductions db fs gross_pay period_date = Ok d /\
    sss_deduction fs (get_latest_compliance_file db "SSS Contributions")
      gross_pay = Ok (sss d) /\
    philhealth_deduction fs (get_latest_compliance_file db "PhilHealth Rates")
      gross_pay = Ok (philhealth d) /\
    pagibig_deduction fs (get_latest_compliance_file db "Pag-IBIG Rates")
      gross_pay = Ok (pagibig d) /\
    tax_deduction fs (get_latest_compliance_file db "BIR Tax")
      (gross_pay - (sss d + philhealth d + pagibig d)) = Ok (tax d).
Proof.
  unfold calculate_compliance_deductions.
  destruct (sss_deduction_total fs
              (get_latest_compliance_file db "SSS Contributions") gross_pay)
    as [s Hs].
  destruct (philhealth_deduction_total fs
              (get_latest_compliance_file db "PhilHealth Rates") gross_pay)
    as [p Hp].
  destruct (pagibig_deduction_total fs
              (get_latest_compliance_file db "Pag-IBIG Rates") gross_pay)
    as [g Hg].
  destruct (tax_deduction_total fs
              (get_latest_compliance_file db "BIR Tax")
              (gross_pay - (s + p + g))) as [t Ht].
  rewrite Hs, Hp, Hg. simpl. rewrite Ht. simpl.
  eexists; split; [reflexivity |]. simpl. auto.
Qed.

Lemma length_zero_nil {A : Type} (l : list A) :
  (List.length l =? 0)%nat = true -> l = [].
Proof.
  destruct l; simpl; [reflexivity | discriminate].
Qed.

Lemma sss_deduction_default db fs gross_pay :
  uses_default db fs "SSS Contributions" = true ->
  sss_deduction fs (get_latest_compliance_file db "SSS Contributions") gross_pay
  = Ok (default_sss gross_pay).
Proof.
  unfold uses_default, sss_deduction.
  destruct (parsed_upload_total fs "SSS Contributions"
              (get_latest_compliance_file db "SSS Contributions")) as [r ->].
  destruct r as [[d | d | d | d] |]; simpl; intros H; try reflexivity.
  apply length_zero_nil in H. rewrite H. reflexivity.
Qed.

Lemma philhealth_deduction_default db fs gross_pay :
  uses_default db fs "PhilHealth Rates" = true ->
  philhealth_deduction fs (get_latest_compliance_file db "PhilHealth Rates")
    gross_pay
  = Ok (default_philhealth gross_pay).
Proof.
  unfold uses_default, philhealth_deduction.
  destruct (parsed_upload_total fs "PhilHealth Rates"
              (get_latest_compliance_file db "PhilHealth Rates")) as [r ->].
  destruct r as [[d | d | d | d] |]; simpl; intros H; try reflexivity.
  apply length_zero_nil in H. rewrite H. reflexivity.
Qed.

Lemma pagibig_deduction_default db fs gross_pay :
  uses_default db fs "Pag-IBIG Rates" = true ->
  pagibig_deduction fs (get_latest_compliance_file db "Pag-IBIG Rates")
    gross_pay
  = Ok (default_pagibig gross_pay).
Proof.
  unfold uses_default, pagibig_deduction.
  destruct (parsed_upload_total fs "Pag-IBIG Rates"
              (get_latest_compliance_file db "Pag-IBIG Rates")) as [r ->].
  destruct r as [[d | d | d | d] |]; simpl; intros H; try reflexivity.
  apply length_zero_nil in H. rewrite H. reflexivity.
Qed.

Lemma tax_deduction_default db fs taxable :
  uses_default db fs "BIR Tax" = true ->
  tax_deduction fs (get_latest_compliance_file db "BIR Tax") taxable
  = Ok (default_tax taxable).
Proof.
  unfold uses_default, tax_deduction.
  destruct (parsed_upload_total fs "BIR Tax"
              (get_latest_compliance_file db "BIR Tax")) as [r ->].
  destruct r as [[d | d | d | d] |]; simpl; intros H; try reflexivity.
  apply length_zero_nil in H. rewrite H. reflexivity.
Qed.

(** C7.  When no uploaded SSS table applies, the SSS amount is the built-in
    rule of the gross pay, whatever the date; the rule gives 135.00 at
    3250.00, [min(3250.01 * 0.045, 1125.00)] (stored as 146.25) at 3250.01
    and the cap 1125.00 at 30000. *)
Theorem default_sss_boundaries :
  forall (db : Database) (fs : FileSystem) (period_date : date),
    uses_default db fs "SSS Contributions" = true ->
    (forall gross_pay,
       exists d,
         calculate_compliance_deductions db fs gross_pay period_date = Ok d /\
         sss d = default_sss gross_pay) /\
    (exists d,
       calculate_compliance_deductions db fs 3250.00 period_date = Ok d /\
       sss d = 135) /\
    (exists d,
       calculate_compliance_deductions db fs 3250.01 period_date = Ok d /\
       sss d = py_min (3250.01 * 0.045) 1125.00 /\
       round2 (sss d) == 146.25) /\
    (exists d,
       calculate_compliance_deductions db fs 30000 period_date = Ok d /\
       sss d = 1125).
Proof.
  intros db fs period_date Hdefault.
  assert (Hrule : forall gross_pay,
             exists d,
               calculate_compliance_deductions db fs gross_pay period_date
               = Ok d /\
               sss d = default_sss gross_pay).
  { intros gross_pay.
    destruct (calculate_compliance_deductions_total db fs gross_pay period_date)
      as [d [Hd [Hs _]]].
    exists d. split; [exact Hd |].
    rewrite (sss_deduction_default db fs gross_pay Hdefault) in Hs.
    symmetry. apply Ok_inj. exact Hs. }
  split; [exact Hrule |].
  split; [| split].
  - destruct (Hrule 3250.00) as [d [Hd Hs]]. exists d. split; [exact Hd |].
    rewrite Hs. reflexivity.
  - destruct (Hrule 3250.01) as [d [Hd Hs]]. exists d. split; [exact Hd |].
    rewrite Hs. split; reflexivity.
  - destruct (Hrule 30000) as [d [Hd Hs]]. exists d. split; [exact Hd |].
    rewrite Hs. reflexivity.
Qed.

(** With no table uploaded at all, the three boundary values. *)
Lemma default_sss_boundaries_witness :
  uses_default (empty_db (mkdate 2024 7 15)) no_files "SSS Contributions"
  = true /\
  (exists d,
     calculate_compliance_deductions (empty_db (mkdate 2024 7 15)) no_files
       3250.01 (mkdate 2024 7 1) = Ok d /\
     sss d = py_min (3250.01 * 0.045) 1125.00 /\
     round2 (sss d) == 146.25).
Proof.
  split; [reflexivity |].
  apply (default_sss_boundaries (empty_db (mkdate 2024 7 15)) no_files
           (mkdate 2024 7 1) eq_refl).
Defined.

Lemma Qlt_bool_iff (a b : Q) : Qlt_bool a b = true <-> (a < b)%Q.
Proof.
  unfold Qlt_bool. rewrite negb_true_iff. split.
  - intros H. apply Qnot_le_lt. intros Hle.
    apply Qle_bool_iff in Hle. congruence.
  - intros H. destruct (Qle_bool b a) eqn:E; [| reflexivity].
    apply Qle_bool_iff in E. exfalso. exact (Qlt_not_le _ _ H E).
Qed.

Lemma Qlt_x_iff (q : Q) (bound : xfloat) :
  Qlt_x q bound = true <-> below q bound.
Proof.
  destruct bound as [m |]; simpl; [apply Qlt_bool_iff |].
  split; intros _; [exact I | reflexivity].
Qed.

(** The test of the source loop is the specification's
    [from <= taxable < to]. *)
Lemma in_tax_bracket_iff (taxable : Q) (b : TaxBracket) :
  in_tax_bracket taxable b = true <-> from_le_taxable_lt_to taxable b.
Proof.
  unfold in_tax_bracket, from_le_taxable_lt_to.
  rewrite andb_true_iff, Qle_bool_iff, Qlt_x_iff. reflexivity.
Qed.

Lemma find_first {A : Type} (f : A -> bool) (pre post : list A) (x : A) :
  (forall y, In y pre -> f y = false) -> f x = true ->
  find f (pre ++ x :: post) = Some x.
Proof.
  induction pre as [| y rest IH]; simpl; intros Hpre Hx.
  - rewrite Hx. reflexivity.
  - rewrite (Hpre y (or_introl eq_refl)). apply IH; [| exact Hx].
    intros z Hz. apply Hpre. right. exact Hz.
Qed.

Lemma find_none_all {A : Type} (f : A -> bool) (l : list A) :
  (forall y, In y l -> f y = false) -> find f l = None.
Proof.
  induction l as [| y rest IH]; simpl; intros H; [reflexivity |].
  rewrite (H y (or_introl eq_refl)). apply IH.
  intros z Hz. apply H. right. exact Hz.
Qed.

Lemma not_in_tax_bracket (taxable : Q) (b : TaxBracket) :
  ~ from_le_taxable_lt_to taxable b -> in_tax_bracket taxable b = false.
Proof.
  intros H. destruct (in_tax_bracket taxable b) eqn:E; [| reflexivity].
  exfalso. apply H. apply in_tax_bracket_iff. exact E.
Qed.

(** What an uploaded tax table charges, in the specification's words. *)
Lemma tax_from_brackets_first (bs pre post : list TaxBracket) (b : TaxBracket)
    (taxable : Q) :
  bs = pre ++ b :: post ->
  (forall b', In b' pre -> ~ from_le_taxable_lt_to taxable b') ->
  from_le_taxable_lt_to taxable b ->
  tax_from_brackets bs taxable
  = tax_base_tax b + (taxable - tax_from b) * tax_rate b.
Proof.
  intros -> Hpre Hb. unfold tax_from_brackets.
  rewrite (find_first (in_tax_bracket taxable) pre post b); [reflexivity | |].
  - intros y Hy. apply not_in_tax_bracket. apply Hpre. exact Hy.
  - apply in_tax_bracket_iff. exact Hb.
Qed.

Lemma tax_from_brackets_none (bs : list TaxBracket) (taxable : Q) :
  (forall b, In b bs -> ~ from_le_taxable_lt_to taxable b) ->
  tax_from_brackets bs taxable = 0.
Proof.
  intros H. unfold tax_from_brackets.
  rewrite (find_none_all (in_tax_bracket taxable) bs); [reflexivity |].
  intros y Hy. apply not_in_tax_bracket. apply H. exact Hy.
Qed.

(** C6.  The taxable income is [gross_pay - (sss + philhealth + pagibig)].
    When no uploaded tax table applies the built-in rule is used, which gives
    0.00 at 20833, (33332 - 20833) * 0.20 = 2499.80 at 33332 and
    2500 + (66666 - 33332) * 0.25 = 10833.50 at 66666.  When an uploaded
    table with at least one bracket applies, the brackets are tried in the
    order of the document: the first bracket [b] with
    [from <= taxable < to] (no bracket before it has that property) is
    selected and the tax is [base_tax + (taxable - from) * rate]; when no
    bracket of the table has that property the tax is 0. *)
Theorem withholding_tax_rule :
  forall (db : Database) (fs : FileSystem) (gross_pay : Q) (period_date : date),
    (exists d,
       calculate_compliance_deductions db fs gross_pay period_date = Ok d /\
       let taxable := gross_pay - (sss d + philhealth d + pagibig d) in
       (uses_default db fs "BIR Tax" = true ->
        tax d = default_tax taxable) /\
       (forall p,
          parsed_upload fs "BIR Tax" (get_latest_compliance_file db "BIR Tax")
          = Ok (Some (ParsedTax p)) ->
          brackets p <> [] ->
          (forall pre b post,
             brackets p = pre ++ b :: post ->
             (forall b', In b' pre -> ~ from_le_taxable_lt_to taxable b') ->
             from_le_taxable_lt_to taxable b ->
             tax d = tax_base_tax b + (taxable - tax_from b) * tax_rate b) /\
          ((forall b, In b (brackets p) -> ~ from_le_taxable_lt_to taxable b) ->
           tax d = 0))) /\
    default_tax 20833 = 0 /\
    default_tax 33332 = (33332 - 20833) * 0.20 /\
    default_tax 33332 == 2499.80 /\
    default_tax 66666 = 2500 + (66666 - 33332) * 0.25 /\
    default_tax 66666 == 10833.50.
Proof.
  intros db fs gross_pay period_date.
  split; [| repeat split; reflexivity].
  destruct (calculate_compliance_deductions_total db fs gross_pay period_date)
    as [d [Hd [_ [_ [_ Ht]]]]].
  exists d. split; [exact Hd |].
  cbv zeta. split.
  - intros Hdefault.
    rewrite (tax_deduction_default db fs _ Hdefault) in Ht.
    symmetry. apply Ok_inj. exact Ht.
  - intros p Hup Hne.
    unfold tax_deduction in Ht. rewrite Hup in Ht. simpl in Ht.
    assert (Hn : nonempty (brackets p) = true).
    { destruct (brackets p); [contradiction Hne; reflexivity | reflexivity]. }
    rewrite Hn in Ht. apply Ok_inj in Ht. rewrite <- Ht. split.
    + intros pre b post Hsplit Hpre Hb.
      apply (tax_from_brackets_first _ pre post b _ Hsplit Hpre Hb).
    + apply tax_from_brackets_none.
Qed.

(** An uploaded table at work: with the three brackets of the docstring on
    file and a gross pay of 30000, the built-in contributions are 1125, 900
    and 100, the taxable income 27875 falls in the second bracket and the
    tax is (27875 - 20833) * 0.20 = 1408.40. *)
Lemma withholding_tax_rule_witness :
  exists d,
    calculate_compliance_deductions tax_upload_db tax_upload_fs 30000
      (mkdate 2024 7 1) = Ok d /\
    30000 - (sss d + philhealth d + pagibig d) == 27875 /\
    tax d == 1408.40.
Proof.
  destruct (withholding_tax_rule tax_upload_db tax_upload_fs 30000
              (mkdate 2024 7 1)) as [[d [Hd [_ Hup]]] _].
  exists d. split; [exact Hd |].
  assert (Hd' := Hd). vm_compute in Hd'. apply Ok_inj in Hd'. subst d.
  split; [vm_compute; reflexivity |].
  cbv zeta in Hup.
  edestruct Hup as [Hfirst _]; [vm_compute; reflexivity | discriminate |].
  epose proof (Hfirst [_] _ [_] eq_refl) as Hsecond.
  rewrite Hsecond.
  - vm_compute. reflexivity.
  - intros b' [<- | []] [_ Hb]. vm_compute in Hb. discriminate Hb.
  - split; vm_compute; [intros H; discriminate H | reflexivity].
Defined.

(** C1 (evaluation at the failing input).  Two SSS tables are on file,
    effective 1 January and 1 June 2024, charging 100.00 and 200.00.  On
    15 July the lookup returns the June row, and a computation for the
    period date 15 May is charged 200.00: the period date is not read. *)
Lemma may_period_charged_june_rate :
  get_latest_compliance_file two_versions_db "SSS Contributions" = Some sss_june /\
  (exists d,
     calculate_compliance_deductions two_versions_db two_versions_fs
       20000 (mkdate 2024 5 15) = Ok d /\
     sss d = 200.00) /\
  (forall db fs gross_pay d1 d2,
     calculate_compliance_deductions db fs gross_pay d1 =
     calculate_compliance_deductions db fs gross_pay d2).
Proof.
  split; [reflexivity |].
  split; [| reflexivity].
  eexists. split; reflexivity.
Qed.

(** ** Rounding to hundredths *)

Open Scope Q_scope.

Lemma round_half_even_comp q q' :
  q == q' -> round_half_even q = round_half_even q'.
Proof.
  intros H. unfold round_half_even.
  rewrite (Qfloor_comp _ _ H).
  assert (Hc : (q - inject_Z (Qfloor q') ?= 1 # 2) = (q' - inject_Z (Qfloor q') ?= 1 # 2)).
  { apply Qcompare_comp; [rewrite H |]; reflexivity. }
  rewrite Hc. reflexivity.
Qed.

Lemma round2_comp q q' : q == q' -> round2 q == round2 q'.
Proof.
  intros H. unfold round2.
  rewrite (round_half_even_comp (q * 100) (q' * 100)); [reflexivity |].
  rewrite H. reflexivity.
Qed.

Lemma round2_zero q : q == 0 -> round2 q == 0.
Proof.
  intros H. rewrite (round2_comp _ _ H). reflexivity.
Qed.

(** ** The payroll computation *)


(** The returned dictionary, field by field, in terms of the unrounded
    amounts. *)
Lemma payroll_of_totals_fields db fs eid pid sd rate settings t pd :
  payroll_of_totals db fs eid pid sd rate settings t = Ok pd ->
  exists d,
    calculate_compliance_deductions db fs
      (lines_gross (pay_lines rate settings t)) sd = Ok d /\
    employee_id pd = eid /\
    payroll_period_id pd = pid /\
    status pd = "PENDING"%string /\
    basic_pay pd = round2 (l_basic_pay (pay_lines rate settings t)) /\
    overtime_pay pd = round2 (l_overtime_pay (pay_lines rate settings t)) /\
    night_differential_pay pd =
      round2 (l_night_differential_pay (pay_lines rate settings t)) /\
    holiday_pay pd = round2 (l_holiday_pay (pay_lines rate settings t)) /\
    rest_day_pay pd = round2 (l_rest_day_pay (pay_lines rate settings t)) /\
    allowances pd = round2 0 /\
    vacation_sickleave pd = round2 0 /\
    salary_adjustment pd = round2 0 /\
    incentive_pay pd = round2 0 /\
    gross_pay pd = round2 (lines_gross (pay_lines rate settings t)) /\
    sss_contrib pd = round2 (sss d) /\
    philhealth_contrib pd = round2 (philhealth d) /\
    pagibig_contrib pd = round2 (pagibig d) /\
    withholding_tax pd = round2 (tax d) /\
    late_deduction pd = round2 (l_late_deduction (pay_lines rate settings t)) /\
    undertime_deduction pd =
      round2 (l_undertime_deduction (pay_lines rate settings t)) /\
    cash_advance pd = round2 0 /\
    other_deductions pd = round2 0 /\
    total_deductions pd =
      round2 (lines_deductions (pay_lines rate settings t) d) /\
    net_pay pd =
      round2 (lines_gross (pay_lines rate settings t) -
              lines_deductions (pay_lines rate settings t) d).
Proof.
  unfold payroll_of_totals. intros H.
  apply bind_ok in H. destruct H as [d [Hd H]].
  exists d. split; [exact Hd |].
  apply Ok_inj in H. subst pd. simpl.
  repeat split; reflexivity.
Qed.

(** The computation returns as soon as the employee is loaded, the settings
    convert and the attendance rows have no [NULL] among their numbers. *)
Lemma calculate_payroll_returns db fs eid pid sd ed employee settings totals :
  get_employee_by_id db eid = Ok (Some employee) ->
  get_company_work_settings db = Ok settings ->
  for_loop add_record zero_totals (get_attendance_for_period db eid sd ed)
  = Ok totals ->
  exists pd,
    calculate_payroll_for_employee db fs eid pid sd ed = Ok pd /\
    payroll_of_totals db fs eid pid sd (effective_hourly_rate employee)
      settings totals = Ok pd.
Proof.
  intros He Hs Ht. unfold calculate_payroll_for_employee.
  rewrite He. simpl. rewrite Hs. simpl. rewrite Ht. simpl.
  unfold payroll_of_totals.
  destruct (calculate_compliance_deductions_total db fs
              (lines_gross (pay_lines (effective_hourly_rate employee)
                              settings totals)) sd) as [d [Hd _]].
  unfold lines_gross, pay_lines in Hd. simpl in Hd.
  rewrite Hd. simpl. eexists. split; reflexivity.
Qed.

(** An hourly rate of zero is no fault: when the employee's rate is not set
    (not positive) and the rate derived from the salary is zero, the
    computation returns whenever its other inputs load, and every
    attendance-based pay and deduction of the record is zero. *)
Theorem zero_rate_is_zero_pay :
  forall db fs eid pid sd ed employee settings totals,
    get_employee_by_id db eid = Ok (Some employee) ->
    hourly_rate employee <= 0 ->
    calculate_hourly_rate_from_salary (base_salary employee)
      (salary_type employee) == 0 ->
    get_company_work_settings db = Ok settings ->
    for_loop add_record zero_totals (get_attendance_for_period db eid sd ed)
    = Ok totals ->
    exists pd,
      calculate_payroll_for_employee db fs eid pid sd ed = Ok pd /\
      basic_pay pd == 0 /\ overtime_pay pd == 0 /\
      night_differential_pay pd == 0 /\ holiday_pay pd == 0 /\
      rest_day_pay pd == 0 /\
      late_deduction pd == 0 /\ undertime_deduction pd == 0.
Proof.
  intros db fs eid pid sd ed employee settings totals He Hrate Hderived Hs Ht.
  destruct (calculate_payroll_returns db fs eid pid sd ed employee settings
              totals He Hs Ht) as [pd [Hpd Hfields]].
  exists pd. split; [exact Hpd |].
  apply payroll_of_totals_fields in Hfields.
  destruct Hfields as (d & _ & _ & _ & _ & Hb & Ho & Hn & Hh & Hr &
                      _ & _ & _ & _ & _ & _ & _ & _ & _ & Hl & Hu & _).
  assert (Hzero : effective_hourly_rate employee == 0).
  { unfold effective_hourly_rate, Qlt_bool.
    destruct (Qle_bool (hourly_rate employee) 0) eqn:Hle; simpl.
    - exact Hderived.
    - apply Qle_bool_iff in Hrate. congruence. }
  rewrite Hb, Ho, Hn, Hh, Hr, Hl, Hu. unfold pay_lines. simpl.
  repeat split; apply round2_zero; rewrite Hzero; field.
Qed.

Lemma zero_rate_is_zero_pay_witness :
  exists pd,
    calculate_payroll_for_employee zero_rate_db no_files 1 1
      (mkdate 2024 1 1) (mkdate 2024 1 15) = Ok pd /\
    basic_pay pd == 0 /\ overtime_pay pd == 0 /\
    night_differential_pay pd == 0 /\ holiday_pay pd == 0 /\
    rest_day_pay pd == 0 /\
    late_deduction pd == 0 /\ undertime_deduction pd == 0.
Proof.
  eapply (zero_rate_is_zero_pay zero_rate_db no_files 1 1
            (mkdate 2024 1 1) (mkdate 2024 1 15)).
  - reflexivity.
  - simpl. apply Qle_refl.
  - reflexivity.
  - reflexivity.
  - reflexivity.
Defined.

(** ** The upsert *)















(** ** The period run *)










